(** * A push-based observable stream: Observer, Observable, Subscription

  Shallow embedding of [src/index.ts] (classes [Observer] and
  [Observable], interfaces [ObserverHandlers] and [Subscription]).

  The TypeScript code mutates one [Observer] object per subscription and
  calls user-supplied callbacks for their effect.  Both are made explicit
  here: a computation is a function on a store that holds the Observer of
  the subscription and the outside world [W] on which callbacks act.
  Calling a property that is [undefined] raises a [TypeError], as it does
  in JavaScript; the presence checks of the source are what keep that from
  happening.

  The embedding comes in two layers.  In the modules [Observer] and
  [Observable] a callback (a handler or a teardown action) is a function
  on the world: it returns normally and leaves the Observer alone.  In the
  module [Raw] the same method bodies run callbacks that are arbitrary
  computations on the Observer and the world: they may raise, and they may
  change the Observer, as a handler does that calls a method of the
  Observer it belongs to.  The first layer is the second one restricted to
  well-behaved callbacks ([raw_perform_all_polite] and
  [raw_lifecycle_polite] below). *)

From Stdlib Require Import List String Bool Arith Lia ZArith.
Import ListNotations.

Set Implicit Arguments.

(** ** Computations: state with a [TypeError] channel *)

Inductive Exn : Type := TypeError.

Inductive Result (A : Type) : Type :=
| Ok (a : A)
| Raise (x : Exn).

Arguments Ok {A} a.
Arguments Raise {A} x.

Definition M (S A : Type) : Type := S -> Result A * S.

Definition ret {S A : Type} (a : A) : M S A := fun s => (Ok a, s).

Definition bind {S A B : Type} (m : M S A) (k : A -> M S B) : M S B :=
  fun s =>
    match m s with
    | (Ok a, s') => k a s'
    | (Raise x, s') => (Raise x, s')
    end.

Definition raise {S A : Type} (x : Exn) : M S A := fun s => (Raise x, s).

Declare Scope js_scope.
Delimit Scope js_scope with js.
Notation "x <- c1 ;; c2" := (bind c1 (fun x => c2))
  (at level 61, c1 at next level, right associativity) : js_scope.
Notation "c1 ;; c2" := (bind c1 (fun _ => c2))
  (at level 61, right associativity) : js_scope.
Open Scope js_scope.

(** [values.forEach(f)]: [f] on every element, first to last; an exception
  ends the iteration. *)
Fixpoint forEach {S A : Type} (values : list A) (f : A -> M S unit) : M S unit :=
  match values with
  | [] => ret tt
  | value :: rest => f value ;; forEach rest f
  end.

(** JavaScript truthiness of an optional function property. *)
Definition truthy {A : Type} (f : option A) : bool :=
  match f with
  | Some _ => true
  | None => false
  end.

(** [console.log] is the one effect the core performs by itself. *)
Class Console (W : Type) : Type := console_log : string -> W -> W.

(** ** interface ObserverHandlers<T, E> *)

Module ObserverHandlers.
Section Handlers.
Variables T E W : Type.

Record t : Type := mk {
  next : option (T -> W -> W);
  error : option (E -> W -> W);
  complete : option (W -> W)
}.
End Handlers.

Arguments mk {T E W} next error complete.
Arguments next {T E W} _.
Arguments error {T E W} _.
Arguments complete {T E W} _.
End ObserverHandlers.

(** ** class Observer<T, E> *)

Module Observer.
Section Observer.
Context {T E W : Type}.

Record t : Type := mk {
  handlers : ObserverHandlers.t T E W;
  isUnsubscribed : bool;
  _unsubscribe : option (W -> W)
}.

(** The store of one subscription: its Observer and the world. *)
Record Store : Type := mkStore {
  this : t;
  world : W
}.

(** [new Observer(handlers)] *)
Definition new (handlers : ObserverHandlers.t T E W) : t :=
  mk handlers false None.

Definition get_this : M Store t := fun s => (Ok (this s), s).

Definition set_isUnsubscribed (b : bool) : M Store unit :=
  fun s =>
    (Ok tt,
     mkStore (mk (handlers (this s)) b (_unsubscribe (this s))) (world s)).

Definition set__unsubscribe (f : option (W -> W)) : M Store unit :=
  fun s =>
    (Ok tt,
     mkStore (mk (handlers (this s)) (isUnsubscribed (this s)) f) (world s)).

(** [f()] for an optional function [f]. *)
Definition call (f : option (W -> W)) : M Store unit :=
  fun s =>
    match f with
    | Some g => (Ok tt, mkStore (this s) (g (world s)))
    | None => raise TypeError s
    end.

(** [f(x)] for an optional function [f]. *)
Definition call1 {A : Type} (f : option (A -> W -> W)) (x : A) : M Store unit :=
  call (option_map (fun g => g x) f).

Definition next (value : T) : M Store unit :=
  self <- get_this ;;
  if truthy (ObserverHandlers.next (handlers self))
     && negb (isUnsubscribed self)
  then call1 (ObserverHandlers.next (handlers self)) value
  else ret tt.

Definition unsubscribe : M Store unit :=
  set_isUnsubscribed true ;;
  self <- get_this ;;
  if truthy (_unsubscribe self)
  then call (_unsubscribe self)
  else ret tt.

Definition error (error : E) : M Store unit :=
  self <- get_this ;;
  if negb (isUnsubscribed self)
  then
    (if truthy (ObserverHandlers.error (handlers self))
     then call1 (ObserverHandlers.error (handlers self)) error
     else ret tt) ;;
    unsubscribe
  else ret tt.

Definition complete : M Store unit :=
  self <- get_this ;;
  if negb (isUnsubscribed self)
  then
    (if truthy (ObserverHandlers.complete (handlers self))
     then call (ObserverHandlers.complete (handlers self))
     else ret tt) ;;
    unsubscribe
  else ret tt.
End Observer.

Arguments t : clear implicits.
Arguments Store : clear implicits.
End Observer.

(** ** interface Subscription *)

Record Subscription (T E W : Type) : Type := mkSubscription {
  unsubscribe : M (Observer.Store T E W) unit
}.

(** ** class Observable<T, E> *)

Module Observable.
Section Observable.
Context {T E W : Type}.

(** The producer [_subscribe] receives the Observer of the subscription,
    which is the one in the store, and returns the teardown action. *)
Record t : Type := mk {
  _subscribe : M (Observer.Store T E W) (W -> W)
}.

Definition from `{Console W} (values : list T) : t :=
  mk (forEach values (fun value => Observer.next value) ;;
      Observer.complete ;;
      ret (console_log "unsubscribed")).

(** [subscribe] starts from the world [w] it is called in; the store it
    leaves holds the Observer that the returned Subscription closes over. *)
Definition subscribe (self : t) (obs : ObserverHandlers.t T E W)
  : W -> Result (Subscription T E W) * Observer.Store T E W :=
  fun w =>
    (teardown <- _subscribe self ;;
     Observer.set__unsubscribe (Some teardown) ;;
     ret (mkSubscription Observer.unsubscribe))
    (Observer.mkStore (Observer.new obs) w).
End Observable.

Arguments t : clear implicits.
End Observable.

(** ** Clients of an Observer

    A producer, and any later caller that holds the Observer or the
    Subscription, acts on the Observer through its four methods. *)

Section Calls.
Context {T E W : Type}.

Inductive Call : Type :=
| CNext (value : T)
| CError (err : E)
| CComplete
| CUnsubscribe.

Definition perform (c : Call) : M (Observer.Store T E W) unit :=
  match c with
  | CNext value => Observer.next value
  | CError err => Observer.error err
  | CComplete => Observer.complete
  | CUnsubscribe => Observer.unsubscribe
  end.

Definition perform_all (cs : list Call) : M (Observer.Store T E W) unit :=
  forEach cs perform.

(** The calls that end a subscription. *)
Definition terminal (c : Call) : bool :=
  match c with
  | CNext _ => false
  | CError _ | CComplete | CUnsubscribe => true
  end.

(** The producer function that makes the calls [cs] on the Observer it is
    given and then returns [teardown]. *)
Definition producer (cs : list Call) (teardown : W -> W) : Observable.t T E W :=
  Observable.mk (perform_all cs ;; ret teardown).

(** The effect of an optional callback, when the source has checked that it
    is there. *)
Definition run_opt (f : option (W -> W)) (w : W) : W :=
  match f with
  | Some g => g w
  | None => w
  end.

(** The store after one call, as a transition function; [perform_after]
    below proves that the methods compute it and do not raise. *)
Definition after (c : Call) (s : Observer.Store T E W) : Observer.Store T E W :=
  let o := Observer.this s in
  let h := Observer.handlers o in
  let td := Observer._unsubscribe o in
  let w := Observer.world s in
  let ended := Observer.mk h true td in
  match c with
  | CNext value =>
      if Observer.isUnsubscribed o then s
      else Observer.mkStore o
             (run_opt (option_map (fun g => g value) (ObserverHandlers.next h)) w)
  | CError err =>
      if Observer.isUnsubscribed o then s
      else Observer.mkStore ended
             (run_opt td
                (run_opt (option_map (fun g => g err) (ObserverHandlers.error h)) w))
  | CComplete =>
      if Observer.isUnsubscribed o then s
      else Observer.mkStore ended
             (run_opt td (run_opt (ObserverHandlers.complete h) w))
  | CUnsubscribe => Observer.mkStore ended (run_opt td w)
  end.

Definition after_all (cs : list Call) (s : Observer.Store T E W)
  : Observer.Store T E W :=
  fold_left (fun s c => after c s) cs s.

(** Whether a call gets to [this.unsubscribe()] on an Observer whose flag
    is [b]. *)
Definition reaches_unsubscribe (b : bool) (c : Call) : bool :=
  match c with
  | CNext _ => false
  | CError _ | CComplete => negb b
  | CUnsubscribe => true
  end.

(** The handlers object [{}]. *)
Definition no_handlers : ObserverHandlers.t T E W :=
  ObserverHandlers.mk None None None.
End Calls.

Arguments Call : clear implicits.
Arguments no_handlers {T E W}.

(** ** The world as a record of the callbacks made *)

Inductive Event (T E : Type) : Type :=
| EvNext (value : T)
| EvError (err : E)
| EvComplete
| EvTeardown
| EvLog (line : string).

Arguments EvNext {T E} value.
Arguments EvError {T E} err.
Arguments EvComplete {T E}.
Arguments EvTeardown {T E}.
Arguments EvLog {T E} line.

Definition Trace (T E : Type) : Type := list (Event T E).

Definition emit {T E : Type} (ev : Event T E) : Trace T E -> Trace T E :=
  fun w => w ++ [ev].

#[global] Instance Console_Trace (T E : Type) : Console (Trace T E) :=
  fun line => emit (EvLog line).

(** Handlers that record their own invocation; [pn], [pe] and [pc] say
    which of the three fields the handlers object has. *)
Definition recorder {T E : Type} (pn pe pc : bool)
  : ObserverHandlers.t T E (Trace T E) :=
  ObserverHandlers.mk
    (if pn then Some (fun value => emit (EvNext value)) else None)
    (if pe then Some (fun err => emit (EvError err)) else None)
    (if pc then Some (emit EvComplete) else None).

(** A teardown action that records its own invocation. *)
Definition teardown_rec {T E : Type} : Trace T E -> Trace T E :=
  emit EvTeardown.

Definition slot {T E : Type} (pt : bool) : option (Trace T E -> Trace T E) :=
  if pt then Some teardown_rec else None.

Definition is_handler {T E : Type} (ev : Event T E) : bool :=
  match ev with
  | EvNext _ | EvError _ | EvComplete => true
  | EvTeardown | EvLog _ => false
  end.

Definition is_terminal_handler {T E : Type} (ev : Event T E) : bool :=
  match ev with
  | EvError _ | EvComplete => true
  | EvNext _ | EvTeardown | EvLog _ => false
  end.

Definition is_teardown {T E : Type} (ev : Event T E) : bool :=
  match ev with
  | EvTeardown => true
  | EvNext _ | EvError _ | EvComplete | EvLog _ => false
  end.

(** How often the recording teardown ran, and which handler calls were made. *)
Definition teardowns {T E : Type} (w : Trace T E) : nat :=
  List.length (filter is_teardown w).

Definition handler_calls {T E : Type} (w : Trace T E) : Trace T E :=
  filter is_handler w.


(** The calls [cs] made on the Observer [o], from an empty record. *)
Definition trace_of {T E : Type} (cs : list (Call T E))
  (o : Observer.t T E (Trace T E)) : Trace T E :=
  Observer.world (snd (perform_all cs (Observer.mkStore o []))).

(** What one call adds to the record, for recording callbacks, on an
    Observer whose flag is [b]; [after_recorder] below proves it. *)
Definition emitted {T E : Type} (pn pe pc pt b : bool) (c : Call T E)
  : Trace T E :=
  match c with
  | CNext value => if negb b && pn then [EvNext value] else []
  | CError err =>
      if b then []
      else (if pe then [EvError err] else []) ++ (if pt then [EvTeardown] else [])
  | CComplete =>
      if b then []
      else (if pc then [EvComplete] else []) ++ (if pt then [EvTeardown] else [])
  | CUnsubscribe => if pt then [EvTeardown] else []
  end.

Fixpoint emitted_all {T E : Type} (pn pe pc pt b : bool) (cs : list (Call T E))
  : Trace T E :=
  match cs with
  | [] => []
  | c :: rest =>
      emitted pn pe pc pt b c ++ emitted_all pn pe pc pt (b || terminal c) rest
  end.

(** An Observer with recording handlers, flag [b], and the recording
    teardown in its slot when [pt] holds. *)
Definition recording_observer {T E : Type} (pn pe pc pt b : bool)
  : Observer.t T E (Trace T E) :=
  Observer.mk (recorder pn pe pc) b (slot pt).

(** A subscription from start to end: [subscribe] on the producer that
    makes the calls [cs] and returns [teardown], then the calls [later] made
    on the same Observer once [subscribe] has returned (by a producer that
    kept the Observer for asynchronous delivery, or by the holder of the
    Subscription, whose [unsubscribe] is the Observer's). *)
Definition lifecycle {T E W : Type} (cs : list (Call T E)) (teardown : W -> W)
  (obs : ObserverHandlers.t T E W) (later : list (Call T E)) (w : W)
  : Result unit * Observer.Store T E W :=
  match Observable.subscribe (producer cs teardown) obs w with
  | (Ok _, s) => perform_all later s
  | (Raise x, s) => (Raise x, s)
  end.

(** ** Reading a sequence of calls and a record *)

(** The values of the [next] calls that come before the first terminal
    call. *)
Fixpoint values_before_end {T E : Type} (cs : list (Call T E)) : list T :=
  match cs with
  | CNext value :: rest => value :: values_before_end rest
  | _ => []
  end.

Definition is_unsubscribe {T E : Type} (c : Call T E) : bool :=
  match c with
  | CUnsubscribe => true
  | CNext _ | CError _ | CComplete => false
  end.

Definition unsubscribes {T E : Type} (cs : list (Call T E)) : nat :=
  List.length (filter is_unsubscribe cs).

(** The values the [next] handler was called with, in order. *)
Definition next_values {T E : Type} (w : Trace T E) : list T :=
  flat_map (fun ev => match ev with EvNext value => [value] | _ => [] end) w.

(** ** The request demo (the rest of [index.ts]) *)

(** [console.error(...args)] *)
Class ConsoleError (W : Type) : Type := console_error : list string -> W -> W.

(** [type HTTPMethod = "POST" | "GET"] and [type HTTPStatus = 200 | 500] *)
Inductive HTTPMethod : Type := POST | GET.

Inductive HTTPStatus : Type := Status200 | Status500.

Definition HTTP_POST_METHOD : HTTPMethod := POST.
Definition HTTP_GET_METHOD : HTTPMethod := GET.
Definition HTTP_STATUS_OK : HTTPStatus := Status200.
Definition HTTP_STATUS_INTERNAL_SERVER_ERROR : HTTPStatus := Status500.

Record CustomResponse : Type := mkCustomResponse {
  status : HTTPStatus
}.

Section Demo.
(** The types of [body], [details] and [code] ([unknown], [unknown] and
    [number]) are left open: no function looks into them. *)
Variables Body Details Number : Type.

Record CustomRequest : Type := mkCustomRequest {
  method : HTTPMethod;
  host : string;
  path : string;
  body : option Body;
  params : list (string * string)
}.

Record CustomError : Type := mkCustomError {
  message : string;
  code : option Number;
  details : option Details
}.

Context {W : Type} `{Console W} `{ConsoleError W}.

Definition handleRequest (request : CustomRequest) : CustomResponse :=
  mkCustomResponse HTTP_STATUS_OK.

Definition handleError (error : CustomError) : W -> CustomResponse * W :=
  fun w =>
    (mkCustomResponse HTTP_STATUS_INTERNAL_SERVER_ERROR,
     console_error ["Error occurred:"%string; message error] w).

Definition handleComplete : W -> W := console_log "complete".

(** The handlers object of the demo.  An Observer calls its handlers for
    their effect and drops what they return. *)
Definition demo_handlers : ObserverHandlers.t CustomRequest CustomError W :=
  ObserverHandlers.mk
    (Some (fun request w => let _ := handleRequest request in w))
    (Some (fun error w => snd (handleError error w)))
    (Some handleComplete).

(** The statements at the end of the file, for the list [requestsMock]:
    [requests$ = Observable.from(requestsMock)], the subscription with the
    three handlers, and [subscription.unsubscribe()]. *)
Definition main (requestsMock : list CustomRequest)
  : W -> Result unit * Observer.Store CustomRequest CustomError W :=
  fun w =>
    let requests' := Observable.from requestsMock in
    match Observable.subscribe requests' demo_handlers w with
    | (Ok subscription, s) => unsubscribe subscription s
    | (Raise x, s) => (Raise x, s)
    end.
End Demo.

(** A terminal: the lines of [console.log] and the argument lists of
    [console.error]. *)
Record Std : Type := mkStd {
  stdout : list string;
  stderr : list (list string)
}.

#[global] Instance Console_Std : Console Std :=
  fun line w => mkStd (stdout w ++ [line]) (stderr w).

#[global] Instance ConsoleError_Std : ConsoleError Std :=
  fun args w => mkStd (stdout w) (stderr w ++ [args]).

(** ** The Observer with callbacks that may throw or call back

    The method bodies of [index.ts] 33-65 and 82-91 once more, over
    callbacks that are computations on the state of the Observer and the
    world.  The handlers object is the immutable [this.handlers]; the
    mutable part of the Observer is the flag and the teardown slot, which
    holds a function object of type [F] that [apply] runs. *)

Module Raw.
Section State.
Variables W F : Type.

Record State : Type := mkState {
  isUnsubscribed : bool;
  _unsubscribe : option F;
  world : W
}.

Definition Callback : Type := M State unit.

Record Subscription : Type := mkSubscription {
  unsubscribe : M State unit
}.

Definition with_world (f : W -> W) (st : State) : State :=
  mkState (isUnsubscribed st) (_unsubscribe st) (f (world st)).

(** A callback that has the effect [f], returns normally and leaves the
    Observer alone. *)
Definition polite (f : W -> W) : Callback :=
  fun st => (Ok tt, with_world f st).

(** A callback that has the effect [f] and then throws [x]. *)
Definition throwing (f : W -> W) (x : Exn) : Callback :=
  fun st => (Raise x, with_world f st).
End State.

Arguments mkState {W F} isUnsubscribed _unsubscribe world.
Arguments isUnsubscribed {W F} _.
Arguments _unsubscribe {W F} _.
Arguments world {W F} _.
Arguments mkSubscription {W F} unsubscribe.
Arguments unsubscribe {W F} _.
Arguments with_world {W F} f st.
Arguments polite {W F} f.
Arguments throwing {W F} f x.

Module Handlers.
Section Handlers.
Variables T E W F : Type.

Record t : Type := mk {
  next : option (T -> Callback W F);
  error : option (E -> Callback W F);
  complete : option (Callback W F)
}.
End Handlers.

Arguments mk {T E W F} next error complete.
Arguments next {T E W F} _.
Arguments error {T E W F} _.
Arguments complete {T E W F} _.
End Handlers.

Module Observer.
Section Observer.
Context {T E W F : Type}.
Variable apply : F -> Callback W F.
Variable handlers : Handlers.t T E W F.

Definition get_this : M (State W F) (State W F) := fun st => (Ok st, st).

Definition set_isUnsubscribed (b : bool) : M (State W F) unit :=
  fun st => (Ok tt, mkState b (_unsubscribe st) (world st)).

Definition set__unsubscribe (f : option F) : M (State W F) unit :=
  fun st => (Ok tt, mkState (isUnsubscribed st) f (world st)).

(** [f()] for an optional function [f]. *)
Definition call (f : option (Callback W F)) : M (State W F) unit :=
  match f with
  | Some g => g
  | None => raise TypeError
  end.

Definition next (value : T) : M (State W F) unit :=
  self <- get_this ;;
  if truthy (Handlers.next handlers) && negb (isUnsubscribed self)
  then call (option_map (fun g => g value) (Handlers.next handlers))
  else ret tt.

Definition unsubscribe : M (State W F) unit :=
  set_isUnsubscribed true ;;
  self <- get_this ;;
  if truthy (_unsubscribe self)
  then call (option_map apply (_unsubscribe self))
  else ret tt.

Definition error (error : E) : M (State W F) unit :=
  self <- get_this ;;
  if negb (isUnsubscribed self)
  then
    (if truthy (Handlers.error handlers)
     then call (option_map (fun g => g error) (Handlers.error handlers))
     else ret tt) ;;
    unsubscribe
  else ret tt.

Definition complete : M (State W F) unit :=
  self <- get_this ;;
  if negb (isUnsubscribed self)
  then
    (if truthy (Handlers.complete handlers)
     then call (Handlers.complete handlers)
     else ret tt) ;;
    unsubscribe
  else ret tt.

Definition perform (c : Call T E) : M (State W F) unit :=
  match c with
  | CNext value => next value
  | CError err => error err
  | CComplete => complete
  | CUnsubscribe => unsubscribe
  end.

Definition perform_all (cs : list (Call T E)) : M (State W F) unit :=
  forEach cs perform.
End Observer.
End Observer.

Module Observable.
Section Observable.
Context {T E W F : Type}.
Variable apply : F -> Callback W F.

(** [subscribe]: the producer is given the new Observer, that is the
    handlers and a state with the flag unset and the slot empty. *)
Definition subscribe (_subscribe : Handlers.t T E W F -> M (State W F) F)
  (obs : Handlers.t T E W F) : W -> Result (Subscription W F) * State W F :=
  fun w =>
    (teardown <- _subscribe obs ;;
     Observer.set__unsubscribe (Some teardown) ;;
     ret (mkSubscription (Observer.unsubscribe apply)))
    (mkState false None w).

(** The producer function that makes the calls [cs] on the Observer it is
    given and then returns [teardown]. *)
Definition producer (cs : list (Call T E)) (teardown : F)
  : Handlers.t T E W F -> M (State W F) F :=
  fun observer => Observer.perform_all apply observer cs ;; ret teardown.

(** A subscription from start to end, as [lifecycle] above. *)
Definition lifecycle (cs : list (Call T E)) (teardown : F)
  (obs : Handlers.t T E W F) (later : list (Call T E)) (w : W)
  : Result unit * State W F :=
  match subscribe (producer cs teardown) obs w with
  | (Ok _, st) => Observer.perform_all apply obs later st
  | (Raise x, st) => (Raise x, st)
  end.
End Observable.
End Observable.
End Raw.

(** ** From well-behaved callbacks to arbitrary ones *)

Definition polite_handlers {T E W : Type} (obs : ObserverHandlers.t T E W)
  : Raw.Handlers.t T E W (W -> W) :=
  Raw.Handlers.mk
    (option_map (fun g value => Raw.polite (g value)) (ObserverHandlers.next obs))
    (option_map (fun g err => Raw.polite (g err)) (ObserverHandlers.error obs))
    (option_map (fun g => Raw.polite g) (ObserverHandlers.complete obs)).

(** The flag, the slot and the world of a store. *)
Definition inject {T E W : Type} (s : Observer.Store T E W)
  : Raw.State W (W -> W) :=
  Raw.mkState (Observer.isUnsubscribed (Observer.this s))
    (Observer._unsubscribe (Observer.this s)) (Observer.world s).

(** The record that the calls [cs] leave when they are made on the
    Observer [o] with its callbacks run as well-behaved callbacks of
    [Raw]. *)
Definition polite_trace_of {T E : Type} (cs : list (Call T E))
  (o : Observer.t T E (Trace T E)) : Trace T E :=
  Raw.world
    (snd (Raw.Observer.perform_all Raw.polite
            (polite_handlers (Observer.handlers o)) cs
            (inject (Observer.mkStore o [])))).

(** ** Recording handlers that misbehave *)

(** Handlers that record their invocation; the [error] handler then
    throws. *)
Definition throwing_recorder {T E : Type}
  : Raw.Handlers.t T E (Trace T E) (Trace T E -> Trace T E) :=
  Raw.Handlers.mk
    (Some (fun value => Raw.polite (emit (EvNext value))))
    (Some (fun err => Raw.throwing (emit (EvError err)) TypeError))
    (Some (Raw.polite (emit EvComplete))).



(** * Properties *)

Section Transition.
Context {T E W : Type}.

Lemma perform_after (c : Call T E) (s : Observer.Store T E W) :
  perform c s = (Ok tt, after c s).
Proof.
  destruct s as [[[hn he hc] b td] w].
  destruct c, b, td, hn, he, hc; reflexivity.
Qed.

Lemma perform_all_after (cs : list (Call T E)) (s : Observer.Store T E W) :
  perform_all cs s = (Ok tt, after_all cs s).
Proof.
  revert s; induction cs as [|c cs IH]; intros s; [reflexivity|].
  unfold perform_all in *; simpl.
  unfold bind at 1. rewrite perform_after. apply IH.
Qed.

Lemma complete_after (s : Observer.Store T E W) :
  Observer.complete s = (Ok tt, after CComplete s).
Proof. exact (perform_after CComplete s). Qed.

Lemma unsubscribe_after (s : Observer.Store T E W) :
  Observer.unsubscribe s = (Ok tt, after CUnsubscribe s).
Proof. exact (perform_after CUnsubscribe s). Qed.

Lemma after_all_app (cs1 cs2 : list (Call T E)) (s : Observer.Store T E W) :
  after_all (cs1 ++ cs2) s = after_all cs2 (after_all cs1 s).
Proof. apply fold_left_app. Qed.
End Transition.

(** ** Recording callbacks *)

Section Recording.
Context {T E : Type}.
Variables pn pe pc pt : bool.

Lemma after_recorder (b : bool) (c : Call T E) (w : Trace T E) :
  after c (Observer.mkStore (recording_observer pn pe pc pt b) w)
  = Observer.mkStore (recording_observer pn pe pc pt (b || terminal c))
      (w ++ emitted pn pe pc pt b c).
Proof.
  unfold recording_observer.
  destruct c, b, pn, pe, pc, pt; cbn;
    rewrite ?app_nil_r, <- ?app_assoc; reflexivity.
Qed.

Lemma after_all_recorder (cs : list (Call T E)) (b : bool) (w : Trace T E) :
  after_all cs (Observer.mkStore (recording_observer pn pe pc pt b) w)
  = Observer.mkStore (recording_observer pn pe pc pt (b || existsb terminal cs))
      (w ++ emitted_all pn pe pc pt b cs).
Proof.
  revert b w; induction cs as [|c cs IH]; intros b w; simpl.
  - now rewrite orb_false_r, app_nil_r.
  - unfold after_all in *; simpl. rewrite after_recorder, IH.
    now rewrite orb_assoc, app_assoc.
Qed.

Lemma perform_all_recorder (cs : list (Call T E)) (b : bool) (w : Trace T E) :
  perform_all cs (Observer.mkStore (recording_observer pn pe pc pt b) w)
  = (Ok tt,
     Observer.mkStore (recording_observer pn pe pc pt (b || existsb terminal cs))
       (w ++ emitted_all pn pe pc pt b cs)).
Proof. now rewrite perform_all_after, after_all_recorder. Qed.

Lemma trace_of_recorder (cs : list (Call T E)) (b : bool) :
  trace_of cs (recording_observer pn pe pc pt b) = emitted_all pn pe pc pt b cs.
Proof. unfold trace_of. now rewrite perform_all_recorder. Qed.


(** On an ended Observer only the teardown action can still run. *)
Lemma emitted_all_ended (cs : list (Call T E)) :
  exists k, emitted_all pn pe pc pt true cs = repeat EvTeardown k.
Proof.
  induction cs as [|c cs [k IH]]; simpl.
  - now exists 0.
  - rewrite IH. destruct c; simpl; try (now exists k).
    destruct pt; [now exists (S k) | now exists k].
Qed.


Lemma emitted_all_unsubscribes (b : bool) (n : nat) :
  emitted_all pn pe pc pt b (repeat (@CUnsubscribe T E) n)
  = repeat EvTeardown (if pt then n else 0).
Proof.
  revert b; induction n as [|n IH]; intros b; simpl.
  - now destruct pt.
  - rewrite IH. now destruct pt.
Qed.
End Recording.

Lemma handler_calls_teardowns {T E : Type} (k : nat) :
  handler_calls (repeat (@EvTeardown T E) k) = [].
Proof. induction k; simpl; auto. Qed.

Lemma teardowns_repeat {T E : Type} (k : nat) :
  teardowns (repeat (@EvTeardown T E) k) = k.
Proof. unfold teardowns. induction k; simpl; auto. Qed.

Lemma existsb_terminal_unsubscribes {T E : Type} (n : nat) :
  existsb terminal (repeat (@CUnsubscribe T E) n) = (0 <? n).
Proof. destruct n; reflexivity. Qed.

(** ** Subscribing *)

Section Subscribing.
Context {T E W : Type}.

(** During the producer's run the teardown slot is still empty; it is
    filled when the producer has returned, whatever the producer did. *)
Lemma subscribe_producer (cs : list (Call T E)) (teardown : W -> W)
  (obs : ObserverHandlers.t T E W) (w : W) :
  Observable.subscribe (producer cs teardown) obs w
  = let s := after_all cs (Observer.mkStore (Observer.new obs) w) in
    (Ok (mkSubscription Observer.unsubscribe),
     Observer.mkStore
       (Observer.mk (Observer.handlers (Observer.this s))
          (Observer.isUnsubscribed (Observer.this s)) (Some teardown))
       (Observer.world s)).
Proof.
  unfold Observable.subscribe, producer; simpl.
  unfold bind. now rewrite perform_all_after.
Qed.

Lemma forEach_next (values : list T) :
  forEach values (fun value => Observer.next value)
  = perform_all (W := W) (map (@CNext T E) values).
Proof.
  unfold perform_all. induction values as [|v values IH]; simpl.
  - reflexivity.
  - now rewrite IH.
Qed.

(** [from values] is the producer that makes the calls [next] on every
    value and then [complete], and returns the logging teardown. *)
Lemma subscribe_from `{Console W} (values : list T)
  (obs : ObserverHandlers.t T E W) (w : W) :
  Observable.subscribe (Observable.from values) obs w
  = Observable.subscribe
      (producer (map (@CNext T E) values ++ [CComplete])
         (console_log "unsubscribed")) obs w.
Proof.
  rewrite subscribe_producer, after_all_app.
  unfold Observable.subscribe, Observable.from.
  cbn [Observable._subscribe]. unfold bind.
  rewrite forEach_next, perform_all_after.
  now rewrite complete_after.
Qed.
End Subscribing.

Lemma subscribe_recorder {T E : Type} (pn pe pc : bool) (cs : list (Call T E))
  (teardown : Trace T E -> Trace T E) (w : Trace T E) :
  Observable.subscribe (producer cs teardown) (recorder pn pe pc) w
  = (Ok (mkSubscription Observer.unsubscribe),
     Observer.mkStore
       (Observer.mk (recorder pn pe pc) (existsb terminal cs) (Some teardown))
       (w ++ emitted_all pn pe pc false false cs)).
Proof.
  rewrite subscribe_producer.
  change (Observer.new (recorder pn pe pc))
    with (recording_observer (T := T) (E := E) pn pe pc false false).
  now rewrite after_all_recorder.
Qed.

Section RecordedSubscriptions.
Context {T E : Type}.
Variables pn pe pc : bool.

Lemma lifecycle_recorder (cs later : list (Call T E)) (w : Trace T E) :
  lifecycle cs teardown_rec (recorder pn pe pc) later w
  = (Ok tt,
     Observer.mkStore
       (recording_observer pn pe pc true
          (existsb terminal cs || existsb terminal later))
       (w ++ emitted_all pn pe pc false false cs
          ++ emitted_all pn pe pc true (existsb terminal cs) later)).
Proof.
  unfold lifecycle. rewrite subscribe_recorder.
  change (Observer.mk (recorder pn pe pc) (existsb terminal cs) (Some teardown_rec))
    with (recording_observer (T := T) (E := E) pn pe pc true (existsb terminal cs)).
  now rewrite perform_all_recorder, app_assoc.
Qed.

(** While the slot is empty no teardown runs. *)
Lemma teardowns_empty_slot (cs : list (Call T E)) (b : bool) :
  teardowns (emitted_all pn pe pc false b cs) = 0.
Proof.
  unfold teardowns.
  revert b; induction cs as [|c cs IH]; intros b; simpl; [reflexivity|].
  rewrite filter_app, length_app, IH.
  destruct c, b, pn, pe, pc; reflexivity.
Qed.

Lemma emitted_all_from (values : list T) :
  emitted_all pn pe pc false false (map (@CNext T E) values ++ [CComplete])
  = (if pn then map EvNext values else []) ++ (if pc then [EvComplete] else []).
Proof.
  induction values as [|v values IH]; simpl.
  - destruct pn, pc; reflexivity.
  - rewrite IH. destruct pn; reflexivity.
Qed.

Lemma existsb_terminal_from (values : list T) :
  existsb terminal (map (@CNext T E) values ++ [CComplete]) = true.
Proof. rewrite existsb_app; simpl. apply orb_true_r. Qed.

Lemma subscribe_from_recorder (values : list T) (w : Trace T E) :
  Observable.subscribe (Observable.from values) (recorder pn pe pc) w
  = (Ok (mkSubscription Observer.unsubscribe),
     Observer.mkStore
       (Observer.mk (recorder pn pe pc) true (Some (console_log "unsubscribed")))
       (w ++ (if pn then map EvNext values else [])
          ++ (if pc then [EvComplete] else []))).
Proof.
  rewrite subscribe_from, subscribe_recorder.
  now rewrite existsb_terminal_from, emitted_all_from.
Qed.
End RecordedSubscriptions.

(** ** P2: unsubscribe and the teardown action *)

(** C1, as the code has it: every call of [unsubscribe()] invokes the
    teardown action that is in the slot, so [n] calls invoke it [n] times,
    whether or not an earlier call or terminal event has invoked it
    already; with an empty slot no call invokes anything.  No call raises,
    and the Observer is ended from the first call on. *)
Theorem C1_unsubscribe_invokes_teardown_every_time {T E : Type}
  (pn pe pc b : bool) (n : nat) (w : Trace T E) :
  perform_all (repeat CUnsubscribe n)
    (Observer.mkStore (recording_observer pn pe pc true b) w)
  = (Ok tt,
     Observer.mkStore (recording_observer pn pe pc true (b || (0 <? n)))
       (w ++ repeat EvTeardown n))
  /\ teardowns
       (trace_of (T := T) (E := E) (repeat CUnsubscribe n)
          (recording_observer pn pe pc true b))
     = n
  /\ perform_all (repeat CUnsubscribe n)
       (Observer.mkStore (recording_observer pn pe pc false b) w)
     = (Ok tt,
        Observer.mkStore (recording_observer pn pe pc false (b || (0 <? n))) w).
Proof.
  repeat split.
  - now rewrite perform_all_recorder, emitted_all_unsubscribes,
      existsb_terminal_unsubscribes.
  - now rewrite trace_of_recorder, emitted_all_unsubscribes, teardowns_repeat.
  - now rewrite perform_all_recorder, emitted_all_unsubscribes,
      existsb_terminal_unsubscribes, app_nil_r.
Qed.

(** C1 as stated fails: after a subscription whose producer makes no call,
    two calls of [unsubscribe()] invoke the teardown action twice. *)
Lemma C1_two_unsubscribes_two_teardowns :
  let w :=
    Observer.world
      (snd (lifecycle (T := nat) (E := string) [] teardown_rec
              (recorder true true true) [CUnsubscribe; CUnsubscribe] [])) in
  w = [EvTeardown; EvTeardown] /\ ~ teardowns w <= 1.
Proof. cbv. split; [reflexivity | lia]. Qed.

(** ** P1: at most one terminal notification *)


(** ** Teardown is wired when the producer has returned *)

(** C3: when the producer calls [complete()] before it returns its teardown
    function, [subscribe] does not invoke that teardown, neither at the
    completion nor when it stores it in the slot of the ended Observer.
    Afterwards [next], [error] and [complete] change nothing, and only an
    explicit [unsubscribe()] on the Subscription invokes the teardown.
    [Observable.from] is such a producer: subscribing logs nothing, and
    the later [unsubscribe()] logs the line of its teardown. *)
Theorem C3_teardown_of_completed_producer {T E : Type} (pn pe pc : bool)
  (cs : list (Call T E)) :
  In CComplete cs ->
  (exists sub s,
      Observable.subscribe (producer cs teardown_rec) (recorder pn pe pc) []
      = (Ok sub, s)
      /\ teardowns (Observer.world s) = 0
      /\ Observer.isUnsubscribed (Observer.this s) = true
      /\ Observer._unsubscribe (Observer.this s) = Some teardown_rec
      /\ (forall value, Observer.next value s = (Ok tt, s))
      /\ (forall err, Observer.error err s = (Ok tt, s))
      /\ Observer.complete s = (Ok tt, s)
      /\ unsubscribe sub s
         = (Ok tt,
            Observer.mkStore (Observer.this s) (Observer.world s ++ [EvTeardown])))
  /\ (forall values : list T,
         exists sub s,
           Observable.subscribe (E := E) (Observable.from values)
             (recorder pn pe pc) []
           = (Ok sub, s)
           /\ Observer.world s
              = (if pn then map EvNext values else [])
                  ++ (if pc then [EvComplete] else [])
           /\ unsubscribe sub s
              = (Ok tt,
                 Observer.mkStore (Observer.this s)
                   (Observer.world s ++ [EvLog "unsubscribed"]))).
Proof.
  intros Hin. split.
  - assert (Hend : existsb terminal cs = true).
    { apply existsb_exists. now exists CComplete. }
    do 2 eexists. rewrite subscribe_recorder, Hend; simpl.
    split; [reflexivity|].
    split; [apply teardowns_empty_slot|].
    repeat split; intros; destruct pn, pe, pc; reflexivity.
  - intros values. do 2 eexists.
    rewrite subscribe_from_recorder; simpl.
    repeat split.
Qed.

Lemma C3_witness :
  In (CComplete (T := nat) (E := string)) [CNext 7; CComplete]
  /\ exists sub s,
       Observable.subscribe (E := string)
         (producer [CNext 7; CComplete] teardown_rec)
         (recorder true true true) []
       = (Ok sub, s)
       /\ teardowns (Observer.world s) = 0
       /\ Observer.isUnsubscribed (Observer.this s) = true
       /\ Observer._unsubscribe (Observer.this s) = Some teardown_rec
       /\ (forall value, Observer.next value s = (Ok tt, s))
       /\ (forall err, Observer.error err s = (Ok tt, s))
       /\ Observer.complete s = (Ok tt, s)
       /\ unsubscribe sub s
          = (Ok tt,
             Observer.mkStore (Observer.this s)
               (Observer.world s ++ [EvTeardown])).
Proof.
  assert (Hin : In (CComplete (T := nat) (E := string)) [CNext 7; CComplete])
    by (simpl; auto).
  split; [exact Hin|].
  exact (proj1 (C3_teardown_of_completed_producer true true true
                  [CNext 7; CComplete] Hin)).
Defined.

(** ** P3: order preservation *)

(** C4: subscribing to [from [a; b; c]] with a [next] and a [complete]
    handler calls [next] with [a], [b], [c] in that order, then [complete]
    once, and never [error]; it does not raise.  The same holds for every
    list of values. *)
Theorem C4_from_preserves_order {T E : Type} (pe : bool) :
  (forall a b c : T,
      Observable.subscribe (E := E) (Observable.from [a; b; c])
        (recorder true pe true) []
      = (Ok (mkSubscription Observer.unsubscribe),
         Observer.mkStore
           (Observer.mk (recorder true pe true) true
              (Some (console_log "unsubscribed")))
           [EvNext a; EvNext b; EvNext c; EvComplete]))
  /\ (forall values : list T,
         Observer.world
           (snd (Observable.subscribe (E := E) (Observable.from values)
                   (recorder true pe true) []))
         = map EvNext values ++ [EvComplete]).
Proof.
  split.
  - intros a b c. now rewrite subscribe_from_recorder.
  - intros values. now rewrite subscribe_from_recorder.
Qed.

(** C5, as the code has it: after the subscription to [from [1; 2; 3]] has
    delivered [h1(1)], [h1(2)], [h1(3)], [h3()], with [h2] never called,
    [unsubscribe()] on the returned Subscription invokes no handler, and it
    executes the teardown action of [from] once, which logs its line. *)
Theorem C5_unsubscribe_after_from_completed {E : Type} :
  exists sub s,
    Observable.subscribe (E := E) (Observable.from [1; 2; 3]%Z)
      (recorder true true true) []
    = (Ok sub, s)
    /\ Observer.world s = [EvNext 1%Z; EvNext 2%Z; EvNext 3%Z; EvComplete]
    /\ exists s',
         unsubscribe sub s = (Ok tt, s')
         /\ Observer.world s' = Observer.world s ++ [EvLog "unsubscribed"]
         /\ handler_calls (Observer.world s') = handler_calls (Observer.world s).
Proof.
  do 2 eexists. rewrite subscribe_from_recorder; simpl.
  repeat split. eexists. repeat split.
Qed.

(** C5 as stated fails: that [unsubscribe()] call does have an effect, it
    runs the teardown action, whose log line is added to the record. *)
Lemma C5_unsubscribe_runs_from_teardown :
  let s :=
    snd (Observable.subscribe (E := string) (Observable.from [1; 2; 3]%Z)
           (recorder true true true) []) in
  let s' := snd (Observer.unsubscribe s) in
  Observer.world s = [EvNext 1%Z; EvNext 2%Z; EvNext 3%Z; EvComplete]
  /\ Observer.world s'
     = [EvNext 1%Z; EvNext 2%Z; EvNext 3%Z; EvComplete; EvLog "unsubscribed"]
  /\ Observer.world s' <> Observer.world s.
Proof. cbv. repeat split. discriminate. Qed.

(** ** An error from the producer *)

(** C6, as the code has it: with handlers [h1], [h2], [h3] and a producer
    whose only call is [observer.error(err)], [h2(err)] is called exactly
    once and [h1], [h3] never.  When the producer makes the call before it
    returns, the slot is still empty and the teardown action is not
    invoked; when it makes the call after [subscribe] has returned, the
    teardown action is invoked exactly once. *)
Theorem C6_error_only_producer {T E : Type} (err : E) :
  Observable.subscribe (T := T) (producer [CError err] teardown_rec)
    (recorder true true true) []
  = (Ok (mkSubscription Observer.unsubscribe),
     Observer.mkStore (recording_observer true true true true true)
       [EvError err])
  /\ lifecycle (T := T) [] teardown_rec (recorder true true true)
       [CError err] []
     = (Ok tt,
        Observer.mkStore (recording_observer true true true true true)
          [EvError err; EvTeardown]).
Proof. split; reflexivity. Qed.

(** C6 as stated fails: a producer that calls [observer.error("boom")]
    before it returns has [h2("boom")] called once, and its teardown
    action is not invoked. *)
Lemma C6_error_in_producer_no_teardown :
  let w :=
    Observer.world
      (snd (Observable.subscribe (T := nat)
              (producer [CError "boom"%string] teardown_rec)
              (recorder true true true) [])) in
  w = [EvError "boom"%string] /\ teardowns w <> 1.
Proof. cbv. split; [reflexivity | discriminate]. Qed.

(** ** P5: handlers are optional *)

Section EmptyHandlers.
Context {T E W : Type}.

Lemma after_no_handlers (c : Call T E) (b : bool) (td : option (W -> W)) (w : W) :
  after c (Observer.mkStore (Observer.mk no_handlers b td) w)
  = Observer.mkStore (Observer.mk no_handlers (b || terminal c) td)
      (if reaches_unsubscribe b c then run_opt td w else w).
Proof. destruct c, b; reflexivity. Qed.

Lemma after_all_no_handlers (cs : list (Call T E)) (b : bool)
  (td : option (W -> W)) (w : W) :
  exists k,
    after_all cs (Observer.mkStore (Observer.mk no_handlers b td) w)
    = Observer.mkStore (Observer.mk no_handlers (b || existsb terminal cs) td)
        (Nat.iter k (run_opt td) w).
Proof.
  revert b w; induction cs as [|c cs IH]; intros b w.
  - exists 0. simpl. now rewrite orb_false_r.
  - unfold after_all in *; simpl. rewrite after_no_handlers.
    destruct (reaches_unsubscribe b c).
    + destruct (IH (b || terminal c) (run_opt td w)) as [k Hk].
      exists (S k). rewrite Hk, orb_assoc. f_equal.
      now rewrite Nat.iter_succ_r.
    + destruct (IH (b || terminal c) w) as [k Hk].
      exists k. now rewrite Hk, orb_assoc.
Qed.

Lemma after_all_no_handlers_no_slot (cs : list (Call T E)) (b : bool) (w : W) :
  after_all cs (Observer.mkStore (Observer.mk no_handlers b None) w)
  = Observer.mkStore (Observer.mk no_handlers (b || existsb terminal cs) None) w.
Proof.
  destruct (after_all_no_handlers cs b None w) as [k Hk]. rewrite Hk.
  f_equal. clear Hk. induction k; simpl; auto.
Qed.
End EmptyHandlers.

(** C8, as the code has it: with the handlers object [{}], [subscribe]
    does not raise and leaves the world as it was, whatever calls the
    producer makes before it returns: every notification is dropped, and
    no teardown action runs, also when one of the calls ended the Observer,
    because the slot is filled only afterwards.  Later calls do not raise
    either and change the world by runs of the teardown action only; each
    later call that ends the subscription ([error] or [complete] on an
    Observer not yet ended, or [unsubscribe]) runs the teardown action
    once, and a later [next] runs nothing. *)
Theorem C8_empty_handlers {T E W : Type} (td : W -> W) (w : W) :
  (forall cs : list (Call T E),
      Observable.subscribe (producer cs td) no_handlers w
      = (Ok (mkSubscription Observer.unsubscribe),
         Observer.mkStore
           (Observer.mk no_handlers (existsb terminal cs) (Some td)) w))
  /\ (forall (later : list (Call T E)) (b : bool),
         exists k,
           perform_all later
             (Observer.mkStore (Observer.mk no_handlers b (Some td)) w)
           = (Ok tt,
              Observer.mkStore
                (Observer.mk no_handlers (b || existsb terminal later) (Some td))
                (Nat.iter k td w)))
  /\ (forall (c : Call T E) (b : bool),
         perform c (Observer.mkStore (Observer.mk no_handlers b (Some td)) w)
         = (Ok tt,
            Observer.mkStore (Observer.mk no_handlers (b || terminal c) (Some td))
              (if reaches_unsubscribe b c then td w else w))).
Proof.
  repeat split.
  - intros cs. rewrite subscribe_producer.
    unfold Observer.new. now rewrite after_all_no_handlers_no_slot.
  - intros later b.
    destruct (after_all_no_handlers later b (Some td) w) as [k Hk].
    exists k. now rewrite perform_all_after, Hk.
  - intros c b. now rewrite perform_after, after_no_handlers.
Qed.

(** C8 as stated fails: subscribing to [from [1; 2; 3]] with [{}] ends the
    Observer, and the teardown action of [from], which would log its line,
    has not run. *)
Lemma C8_from_ends_without_teardown :
  let s :=
    snd (Observable.subscribe (E := string) (W := Trace Z string)
           (Observable.from [1; 2; 3]%Z) no_handlers []) in
  Observer.isUnsubscribed (Observer.this s) = true
  /\ Observer.world s = []
  /\ ~ In (EvLog "unsubscribed") (Observer.world s).
Proof. cbv. repeat split. intros []. Qed.

(** ** P4: silence after unsubscribe *)

(** C9: once [unsubscribe()] has been called on an Observer to which
    nothing has been delivered, [next(v)] and [complete()] change nothing,
    so no handler is called; no later sequence of calls makes a handler
    call.  In particular, when the holder of the Subscription unsubscribes
    before a producer that delivers later has emitted anything, the values
    and the completion it then sends reach no handler. *)
Theorem C9_silence_after_unsubscribe {T E : Type} :
  (forall (W : Type) (obs : ObserverHandlers.t T E W) (td : option (W -> W))
          (w : W),
      exists s,
        Observer.unsubscribe (Observer.mkStore (Observer.mk obs false td) w)
        = (Ok tt, s)
        /\ (forall value, Observer.next value s = (Ok tt, s))
        /\ Observer.complete s = (Ok tt, s))
  /\ (forall (pn pe pc pt : bool) (cs : list (Call T E)),
         handler_calls
           (trace_of (CUnsubscribe :: cs) (recording_observer pn pe pc pt false))
         = [])
  /\ (forall (pn pe pc : bool) (values : list T),
         lifecycle [] teardown_rec (recorder pn pe pc)
           (CUnsubscribe :: map (@CNext T E) values ++ [CComplete]) []
         = (Ok tt,
            Observer.mkStore (recording_observer pn pe pc true true)
              [EvTeardown])).
Proof.
  repeat split.
  - intros W [hn he hc] td w. eexists. split; [apply unsubscribe_after|].
    split; [intros value|]; destruct hn, hc; reflexivity.
  - intros pn pe pc pt cs. rewrite trace_of_recorder; simpl.
    destruct (emitted_all_ended pn pe pc pt cs) as [k Hk]. rewrite Hk.
    destruct pt; simpl; apply handler_calls_teardowns.
  - intros pn pe pc values. rewrite lifecycle_recorder; simpl.
    destruct (emitted_all_ended pn pe pc true (map (@CNext T E) values ++ [CComplete]))
      as [k Hk].
    f_equal. f_equal. clear Hk k.
    induction values as [|v values IH]; simpl; auto.
Qed.

(** ** The empty sequence *)


(** * Further properties of the Observer *)

Section ObserverFacts.
Context {T E W : Type}.

Lemma after_all_frame (cs : list (Call T E)) (obs : ObserverHandlers.t T E W)
  (b : bool) (td : option (W -> W)) (w : W) :
  Observer.this (after_all cs (Observer.mkStore (Observer.mk obs b td) w))
  = Observer.mk obs (b || existsb terminal cs) td.
Proof.
  revert b w; induction cs as [|c cs IH]; intros b w.
  - simpl. now rewrite orb_false_r.
  - unfold after_all in *. simpl fold_left. simpl existsb.
    rewrite orb_assoc.
    destruct c, b; simpl; rewrite IH; reflexivity.
Qed.


Lemma after_all_nexts (values : list T) (obs : ObserverHandlers.t T E W)
  (td : option (W -> W)) (w : W) :
  after_all (map (@CNext T E) values)
    (Observer.mkStore (Observer.mk obs false td) w)
  = Observer.mkStore (Observer.mk obs false td)
      (fold_left
         (fun w value =>
            run_opt (option_map (fun g => g value) (ObserverHandlers.next obs)) w)
         values w).
Proof.
  revert w; induction values as [|v values IH]; intros w; [reflexivity|].
  unfold after_all in *. simpl. apply IH.
Qed.

Lemma after_ended (c : Call T E) (obs : ObserverHandlers.t T E W)
  (td : option (W -> W)) (w : W) :
  is_unsubscribe c = false ->
  after c (Observer.mkStore (Observer.mk obs true td) w)
  = Observer.mkStore (Observer.mk obs true td) w.
Proof. destruct c; simpl; intros Hc; (reflexivity || discriminate). Qed.
End ObserverFacts.

(** With well-behaved callbacks a terminal call absorbs a [next], [error]
    or [complete] that follows it. *)
Lemma terminal_then_notification {T E W : Type} (c1 c2 : Call T E)
  (s : Observer.Store T E W) :
  terminal c1 = true ->
  is_unsubscribe c2 = false ->
  perform_all [c1; c2] s = perform c1 s.
Proof.
  intros H1 H2. rewrite perform_all_after, perform_after. f_equal.
  unfold after_all; simpl fold_left.
  destruct s as [[obs b td] w].
  assert (Hend : exists w', after c1 (Observer.mkStore (Observer.mk obs b td) w)
                            = Observer.mkStore (Observer.mk obs true td) w').
  { destruct c1, b; simpl; try discriminate; eexists; reflexivity. }
  destruct Hend as [w' Hw']. rewrite Hw'. now apply after_ended.
Qed.


(** With well-behaved callbacks no sequence of calls raises, replaces the
    handlers or touches the teardown slot, and the flag is never reset. *)
Lemma calls_keep_handlers_and_slot {T E W : Type} (cs : list (Call T E))
  (s : Observer.Store T E W) :
  exists s',
    perform_all cs s = (Ok tt, s')
    /\ Observer.handlers (Observer.this s') = Observer.handlers (Observer.this s)
    /\ Observer._unsubscribe (Observer.this s')
       = Observer._unsubscribe (Observer.this s)
    /\ Observer.isUnsubscribed (Observer.this s')
       = Observer.isUnsubscribed (Observer.this s) || existsb terminal cs.
Proof.
  exists (after_all cs s). split; [apply perform_all_after|].
  destruct s as [[obs b td] w]. rewrite after_all_frame. repeat split.
Qed.

(** ** What reaches the handlers, call by call *)

Section Accounting.
Context {T E : Type}.
Variables pn pe pc pt : bool.

Lemma next_values_app (w1 w2 : Trace T E) :
  next_values (w1 ++ w2) = next_values w1 ++ next_values w2.
Proof. apply flat_map_app. Qed.

Lemma next_values_teardowns (k : nat) :
  next_values (repeat (@EvTeardown T E) k) = [].
Proof. induction k; simpl; auto. Qed.

Lemma terminal_handlers_teardowns (k : nat) :
  filter is_terminal_handler (repeat (@EvTeardown T E) k) = [].
Proof. induction k; simpl; auto. Qed.

Lemma next_values_ended (cs : list (Call T E)) :
  next_values (emitted_all pn pe pc pt true cs) = [].
Proof.
  destruct (emitted_all_ended pn pe pc pt cs) as [k Hk].
  rewrite Hk. apply next_values_teardowns.
Qed.

Lemma terminal_handlers_ended (cs : list (Call T E)) :
  filter is_terminal_handler (emitted_all pn pe pc pt true cs) = [].
Proof.
  destruct (emitted_all_ended pn pe pc pt cs) as [k Hk].
  rewrite Hk. apply terminal_handlers_teardowns.
Qed.

Lemma teardowns_app (w1 w2 : Trace T E) :
  teardowns (w1 ++ w2) = teardowns w1 + teardowns w2.
Proof. unfold teardowns. now rewrite filter_app, length_app. Qed.

Lemma teardowns_ended (cs : list (Call T E)) :
  teardowns (emitted_all pn pe pc true true cs) = unsubscribes cs.
Proof.
  induction cs as [|c cs IH]; [reflexivity|].
  simpl emitted_all. rewrite teardowns_app, IH.
  destruct c; reflexivity.
Qed.
End Accounting.

(** With recording callbacks the [next] handler receives the values of the
    [next] calls made before the first terminal call. *)
Lemma recorder_values_until_end {T E : Type} (pe pc pt : bool)
  (cs : list (Call T E)) :
  next_values (trace_of cs (recording_observer true pe pc pt false))
  = values_before_end cs
  /\ next_values (trace_of cs (recording_observer true pe pc pt true)) = [].
Proof.
  rewrite !trace_of_recorder. split; [|apply next_values_ended].
  induction cs as [|c cs IH]; [reflexivity|].
  simpl emitted_all. rewrite next_values_app.
  destruct c; simpl terminal; simpl orb.
  - simpl. now rewrite IH.
  - rewrite next_values_ended. destruct pe, pt; reflexivity.
  - rewrite next_values_ended. destruct pc, pt; reflexivity.
  - rewrite next_values_ended. destruct pt; reflexivity.
Qed.

(** With recording callbacks the first terminal call decides the terminal
    notification. *)
Lemma recorder_first_terminal_call {T E : Type} (pn pe pc pt : bool)
  (cs : list (Call T E)) :
  filter is_terminal_handler
    (trace_of cs (recording_observer pn pe pc pt false))
  = match find terminal cs with
    | Some (CError err) => if pe then [EvError err] else []
    | Some CComplete => if pc then [EvComplete] else []
    | Some (CNext _) | Some CUnsubscribe | None => []
    end.
Proof.
  rewrite trace_of_recorder.
  induction cs as [|c cs IH]; [reflexivity|].
  simpl emitted_all. rewrite filter_app.
  destruct c; simpl terminal; simpl orb; simpl find.
  - rewrite IH. now destruct pn.
  - rewrite terminal_handlers_ended. destruct pe, pt; reflexivity.
  - rewrite terminal_handlers_ended. destruct pc, pt; reflexivity.
  - rewrite terminal_handlers_ended. destruct pt; reflexivity.
Qed.

(** With recording callbacks the teardown action runs once for every
    [unsubscribe()] call, and once more for a first terminal call that is
    [error] or [complete] on an Observer not yet ended. *)
Lemma recorder_teardown_invocations {T E : Type} (pn pe pc b : bool)
  (cs : list (Call T E)) :
  teardowns (trace_of cs (recording_observer pn pe pc true b))
  = unsubscribes cs
    + (if b then 0
       else match find terminal cs with
            | Some (CError _) | Some CComplete => 1
            | Some (CNext _) | Some CUnsubscribe | None => 0
            end).
Proof.
  rewrite trace_of_recorder. destruct b.
  - now rewrite teardowns_ended, Nat.add_0_r.
  - induction cs as [|c cs IH]; [reflexivity|].
    simpl emitted_all. rewrite teardowns_app.
    destruct c; simpl terminal; simpl orb; simpl find.
    + rewrite IH. now destruct pn.
    + rewrite teardowns_ended. unfold unsubscribes; simpl.
      destruct pe; simpl; lia.
    + rewrite teardowns_ended. unfold unsubscribes; simpl.
      destruct pc; simpl; lia.
    + rewrite teardowns_ended. unfold unsubscribes; simpl. lia.
Qed.

(** * Further properties of the Observable *)


Lemma subscribe_from_any_handlers {T E W : Type} `{Console W}
  (values : list T) (obs : ObserverHandlers.t T E W) (w : W) :
  Observable.subscribe (Observable.from values) obs w
  = (Ok (mkSubscription Observer.unsubscribe),
     Observer.mkStore
       (Observer.mk obs true (Some (console_log "unsubscribed")))
       (run_opt (ObserverHandlers.complete obs)
          (fold_left
             (fun w value =>
                run_opt (option_map (fun g => g value) (ObserverHandlers.next obs)) w)
             values w))).
Proof.
  rewrite subscribe_from, subscribe_producer, after_all_app.
  unfold Observer.new. rewrite after_all_nexts. reflexivity.
Qed.


(** * The request demo *)

Section DemoFacts.
Variables Body Details Number W : Type.
Context `{Console W} `{ConsoleError W}.

(** [handleRequest] has no effect of its own. *)
Lemma handle_requests_silent (requests : list (CustomRequest Body)) (w : W) :
  fold_left
    (fun w value =>
       run_opt
         (option_map (fun g => g value)
            (ObserverHandlers.next (demo_handlers Body Details Number))) w)
    requests w
  = w.
Proof. revert w; induction requests as [|r requests IH]; simpl; auto. Qed.
End DemoFacts.

(** X11: for every list of requests the program at the end of the file
    does not raise and logs exactly two lines, "complete" and then
    "unsubscribed": [handleRequest] is run on every request and prints
    nothing, [handleError] is never run, so nothing goes to
    [console.error], and the final [unsubscribe()] runs the teardown of
    [from] although the stream has completed. *)
Theorem X11_main_logs_complete_then_unsubscribed
  {Body Details Number : Type} (requestsMock : list (CustomRequest Body)) :
  (forall (W : Type) (C : Console W) (CE : ConsoleError W) (w : W),
      main Details Number requestsMock w
      = (Ok tt,
         Observer.mkStore
           (Observer.mk (demo_handlers Body Details Number) true
              (Some (console_log "unsubscribed")))
           (console_log "unsubscribed" (console_log "complete" w))))
  /\ (forall (out : list string) (err : list (list string)),
         Observer.world (snd (main Details Number requestsMock (mkStd out err)))
         = mkStd (out ++ ["complete"; "unsubscribed"]%string) err).
Proof.
  assert (Hmain : forall (W : Type) (C : Console W) (CE : ConsoleError W) (w : W),
             main Details Number requestsMock w
             = (Ok tt,
                Observer.mkStore
                  (Observer.mk (demo_handlers Body Details Number) true
                     (Some (console_log "unsubscribed")))
                  (console_log "unsubscribed" (console_log "complete" w)))).
  { intros W C CE w. unfold main.
    rewrite subscribe_from_any_handlers, handle_requests_silent.
    reflexivity. }
  split; [exact Hmain|].
  intros out err. rewrite Hmain. simpl.
  unfold console_log, Console_Std; simpl. now rewrite <- app_assoc.
Qed.


(** * The Observer with arbitrary callbacks *)

Section Agreement.
Context {T E W : Type}.

Lemma after_handlers (c : Call T E) (s : Observer.Store T E W) :
  Observer.handlers (Observer.this (after c s))
  = Observer.handlers (Observer.this s).
Proof. destruct s as [[obs b td] w]; destruct c, b; reflexivity. Qed.

(** With well-behaved callbacks the methods of [Raw] do what those of
    [Observer] do. *)
Lemma raw_perform_polite (c : Call T E) (s : Observer.Store T E W) :
  Raw.Observer.perform Raw.polite
    (polite_handlers (Observer.handlers (Observer.this s))) c (inject s)
  = (Ok tt, inject (after c s)).
Proof.
  destruct s as [[[hn he hc] b td] w].
  destruct c, b, td, hn, he, hc; reflexivity.
Qed.

Lemma raw_perform_all_polite (cs : list (Call T E)) (s : Observer.Store T E W) :
  Raw.Observer.perform_all Raw.polite
    (polite_handlers (Observer.handlers (Observer.this s))) cs (inject s)
  = (Ok tt, inject (after_all cs s)).
Proof.
  revert s; induction cs as [|c cs IH]; intros s; [reflexivity|].
  unfold Raw.Observer.perform_all in *. simpl forEach.
  unfold bind at 1. rewrite raw_perform_polite.
  rewrite <- (after_handlers c s). apply IH.
Qed.

End Agreement.

Lemma polite_trace_of_trace_of {T E : Type} (cs : list (Call T E))
  (o : Observer.t T E (Trace T E)) :
  polite_trace_of cs o = trace_of cs o.
Proof.
  unfold polite_trace_of, trace_of.
  change (Observer.handlers o)
    with (Observer.handlers (Observer.this (Observer.mkStore o (@nil (Event T E))))).
  now rewrite raw_perform_all_polite, perform_all_after.
Qed.

(** [error] reads the [error] field of [this.handlers] only. *)
Lemma raw_error_reads_error_field {T E W F : Type}
  (apply : F -> Raw.Callback W F) (h1 h2 : Raw.Handlers.t T E W F) (err : E) :
  Raw.Handlers.error h1 = Raw.Handlers.error h2 ->
  Raw.Observer.error apply h1 err = Raw.Observer.error apply h2 err.
Proof. intros Heq. unfold Raw.Observer.error. now rewrite Heq. Qed.

(** ** P1 again: the terminal notification *)




(** ** Observer.error again *)



(** ** Further properties, with the callbacks in view *)

(** X2: on an Observer whose flag is set, [next], [error] and [complete]
    run no callback and change nothing, whatever the callbacks are.  With
    callbacks that return normally and leave the Observer alone, every
    terminal call sets the flag, so a [next], [error] or [complete] that
    follows a terminal call leaves the Observer and the world as that call
    left them: [error] and [complete] are then idempotent and exclude each
    other. *)
Theorem X2_terminal_call_absorbs {T E W : Type} :
  (forall (F : Type) (apply : F -> Raw.Callback W F)
          (obs : Raw.Handlers.t T E W F) (c : Call T E) (slot : option F)
          (w : W),
      is_unsubscribe c = false ->
      Raw.Observer.perform apply obs c (Raw.mkState true slot w)
      = (Ok tt, Raw.mkState true slot w))
  /\ (forall (obs : ObserverHandlers.t T E W) (c1 c2 : Call T E) (b : bool)
             (td : option (W -> W)) (w : W),
         terminal c1 = true ->
         is_unsubscribe c2 = false ->
         Raw.Observer.perform_all Raw.polite (polite_handlers obs) [c1; c2]
           (Raw.mkState b td w)
         = Raw.Observer.perform Raw.polite (polite_handlers obs) c1
             (Raw.mkState b td w)).
Proof.
  split.
  - intros F apply [hn he hc] c slot w Hc.
    destruct c, hn, he, hc; simpl in Hc; try discriminate; reflexivity.
  - intros obs c1 c2 b td w H1 H2.
    pose proof (raw_perform_all_polite [c1; c2]
                  (Observer.mkStore (Observer.mk obs b td) w)) as Hall.
    pose proof (raw_perform_polite c1
                  (Observer.mkStore (Observer.mk obs b td) w)) as Hone.
    pose proof (terminal_then_notification c1 c2
                  (Observer.mkStore (Observer.mk obs b td) w) H1 H2) as Habs.
    rewrite perform_all_after, perform_after in Habs.
    injection Habs as Habs.
    unfold inject in Hall, Hone; simpl in Hall, Hone.
    now rewrite Hall, Hone, Habs.
Qed.

Lemma X2_witness :
  (is_unsubscribe (T := nat) (E := string) CComplete = false
   /\ Raw.Observer.perform (T := nat) (E := string) Raw.polite
        throwing_recorder CComplete
        (Raw.mkState true (Some teardown_rec) [])
      = (Ok tt, Raw.mkState true (Some teardown_rec) []))
  /\ (terminal (T := nat) (E := string) (CError "boom"%string) = true
      /\ is_unsubscribe (T := nat) (E := string) CComplete = false
      /\ Raw.Observer.perform_all (T := nat) Raw.polite
           (polite_handlers (recorder true true true))
           [CError "boom"%string; CComplete]
           (Raw.mkState false (Some teardown_rec) [])
         = Raw.Observer.perform Raw.polite
             (polite_handlers (recorder true true true))
             (CError "boom"%string)
             (Raw.mkState false (Some teardown_rec) [])).
Proof.
  pose proof (X2_terminal_call_absorbs (T := nat) (E := string)
                (W := Trace nat string)) as (Hended & Habs).
  split.
  - split; [reflexivity|]. apply Hended. reflexivity.
  - split; [reflexivity|]. split; [reflexivity|].
    apply Habs; reflexivity.
Defined.

(** X4: the methods never reset the flag.  If no teardown action resets
    it, it stays set over every sequence of calls on an Observer whose flag
    is set, whatever the handlers are and also when a call raises.  With
    callbacks that return normally and leave the Observer alone, no
    sequence of calls raises or touches the teardown slot, and afterwards
    the flag is set exactly when it was set before or one of the calls was
    [error], [complete] or [unsubscribe]. *)
Theorem X4_flag_is_never_reset {T E W : Type} :
  (forall (F : Type) (apply : F -> Raw.Callback W F)
          (obs : Raw.Handlers.t T E W F) (cs : list (Call T E))
          (st : Raw.State W F),
      (forall f st', Raw.isUnsubscribed st' = true ->
                     Raw.isUnsubscribed (snd (apply f st')) = true) ->
      Raw.isUnsubscribed st = true ->
      Raw.isUnsubscribed (snd (Raw.Observer.perform_all apply obs cs st)) = true)
  /\ (forall (obs : ObserverHandlers.t T E W) (cs : list (Call T E)) (b : bool)
             (td : option (W -> W)) (w : W),
         exists w',
           Raw.Observer.perform_all Raw.polite (polite_handlers obs) cs
             (Raw.mkState b td w)
           = (Ok tt, Raw.mkState (b || existsb terminal cs) td w')).
Proof.
  split.
  - intros F apply obs cs st Happly.
    assert (Hone : forall c st0,
               Raw.isUnsubscribed st0 = true ->
               Raw.isUnsubscribed (snd (Raw.Observer.perform apply obs c st0)) = true).
    { intros c [b slot w] Hb; simpl in Hb; subst b.
      destruct obs as [hn he hc].
      destruct c, hn, he, hc, slot; simpl; auto;
        apply Happly; reflexivity. }
    revert st. induction cs as [|c cs IH]; intros st Hst; [exact Hst|].
    unfold Raw.Observer.perform_all in *. simpl forEach. unfold bind at 1.
    specialize (Hone c st Hst).
    destruct (Raw.Observer.perform apply obs c st) as [[[]|x] st1]; simpl in *.
    + now apply IH.
    + exact Hone.
  - intros obs cs b td w.
    pose proof (raw_perform_all_polite cs
                  (Observer.mkStore (Observer.mk obs b td) w)) as Hall.
    pose proof (after_all_frame cs obs b td w) as Hframe.
    destruct (after_all cs (Observer.mkStore (Observer.mk obs b td) w))
      as [o1 w1].
    simpl in Hframe. subst o1. unfold inject in Hall; simpl in Hall.
    exists w1. exact Hall.
Qed.

Lemma X4_witness :
  (forall (f : Trace nat string -> Trace nat string)
          (st' : Raw.State (Trace nat string) (Trace nat string -> Trace nat string)),
      Raw.isUnsubscribed st' = true ->
      Raw.isUnsubscribed (snd (Raw.polite f st')) = true)
  /\ Raw.isUnsubscribed
       (snd (Raw.Observer.perform_all Raw.polite throwing_recorder
               [CNext 1; CError "boom"%string; CUnsubscribe; CComplete]
               (Raw.mkState true (Some teardown_rec) [])))
     = true.
Proof.
  assert (Hpolite :
            forall (f : Trace nat string -> Trace nat string)
                   (st' : Raw.State (Trace nat string)
                            (Trace nat string -> Trace nat string)),
              Raw.isUnsubscribed st' = true ->
              Raw.isUnsubscribed (snd (Raw.polite f st')) = true)
    by (intros f st' Hst; exact Hst).
  split; [exact Hpolite|].
  apply (proj1 (X4_flag_is_never_reset (T := nat) (E := string)
                  (W := Trace nat string))); [exact Hpolite | reflexivity].
Defined.

(** X5: when the handlers and the teardown action return normally and do
    not call the Observer, the [next] handler receives exactly the values
    of the [next] calls made before the first [error], [complete] or
    [unsubscribe] call, in the order of the calls: none is lost before the
    end and none is delivered after it.  On an ended Observer it receives
    nothing. *)
Theorem X5_values_delivered_until_end {T E : Type} (pe pc pt : bool)
  (cs : list (Call T E)) :
  next_values (polite_trace_of cs (recording_observer true pe pc pt false))
  = values_before_end cs
  /\ next_values (polite_trace_of cs (recording_observer true pe pc pt true))
     = [].
Proof. rewrite !polite_trace_of_trace_of. apply recorder_values_until_end. Qed.

(** X6: when the handlers and the teardown action return normally and do
    not call the Observer, the first terminal call decides the terminal
    notification: if it is [error(err)] the [error] handler is called once
    with [err], if it is [complete()] the [complete] handler is called
    once, each only if present; if it is [unsubscribe()], or there is none,
    neither handler is ever called.  Later terminal calls add no handler
    call. *)
Theorem X6_first_terminal_call_wins {T E : Type} (pn pe pc pt : bool)
  (cs : list (Call T E)) :
  filter is_terminal_handler
    (polite_trace_of cs (recording_observer pn pe pc pt false))
  = match find terminal cs with
    | Some (CError err) => if pe then [EvError err] else []
    | Some CComplete => if pc then [EvComplete] else []
    | Some (CNext _) | Some CUnsubscribe | None => []
    end.
Proof. rewrite polite_trace_of_trace_of. apply recorder_first_terminal_call. Qed.

(** X7: when the handlers and the teardown action return normally and do
    not call the Observer, a sequence of calls on an Observer with a
    teardown action in its slot invokes it once for every [unsubscribe()]
    call, and once more if the Observer was not ended at the start and the
    first terminal call is [error] or [complete]; [next] and the later
    [error] and [complete] calls never invoke it. *)
Theorem X7_teardown_invocations_counted {T E : Type} (pn pe pc b : bool)
  (cs : list (Call T E)) :
  teardowns (polite_trace_of cs (recording_observer pn pe pc true b))
  = unsubscribes cs
    + (if b then 0
       else match find terminal cs with
            | Some (CError _) | Some CComplete => 1
            | Some (CNext _) | Some CUnsubscribe | None => 0
            end).
Proof. rewrite polite_trace_of_trace_of. apply recorder_teardown_invocations. Qed.
